(** * Bugzilla MCP server (server.py): the six tools and their error policy

    A shallow embedding of [server.py].  Each tool builds one HTTP request,
    hands it to the [requests] library, and classifies the response by its
    status code.  The embedding keeps what the tools can observe or change:

    - the arguments handed to [requests.get/post/put] (a [Request]);
    - the response object ([status_code], [text], what [.json()] yields);
    - the log file, as the list of records appended to it;
    - Python exceptions, as the [Raise] outcome of a computation whose
      effects on the world survive the raise.

    The bug tracker itself is external: it is a transition function on a
    state the tools never see. *)

From Stdlib Require Import String Ascii ZArith List Bool Lia DecimalString.
From Stdlib Require DecimalPos DecimalZ.
Import ListNotations.
Local Open Scope list_scope.
Local Open Scope string_scope.
#[local] Set Warnings "-register-all".

(** ** JSON values, as Python's [json] module produces and consumes them *)

Inductive json_value : Type :=
| JNull
| JBool (b : bool)
| JInt (n : Z)
| JFloat (literal : string)
| JStr (s : string)
| JList (elems : list json_value)
| JDict (items : list (string * json_value)).

(** ** Python dictionaries with string keys

    Insertion-ordered: assigning to a key that is present replaces the value
    where the key already sits, assigning to a new key appends it.  The order
    is what [requests] follows when it writes the query string. *)

Module PyDict.

Definition t (V : Type) : Type := list (string * V).

Section Ops.
Context {V : Type}.

(** [d.get(k)] *)
Fixpoint get (d : t V) (k : string) : option V :=
  match d with
  | [] => None
  | (k', v) :: d' => if String.eqb k k' then Some v else get d' k
  end.

(** [k in d] *)
Definition contains (d : t V) (k : string) : bool :=
  match get d k with Some _ => true | None => false end.

(** [d[k] = v] *)
Fixpoint setitem (d : t V) (k : string) (v : V) : t V :=
  match d with
  | [] => [(k, v)]
  | (k', v') :: d' =>
      if String.eqb k k' then (k', v) :: d' else (k', v') :: setitem d' k v
  end.

(** [d.update(items)], also what [**items] does inside a dict display *)
Definition update (d : t V) (items : list (string * V)) : t V :=
  fold_left (fun acc kv => setitem acc (fst kv) (snd kv)) items d.

(** A dict display [{k1: v1, ..., kn: vn}]: keys are stored left to right. *)
Definition literal (items : list (string * V)) : t V := update [] items.

(** Every key occurs once: the representation invariant of a dict. *)
Fixpoint wf (d : t V) : bool :=
  match d with
  | [] => true
  | (k, _) :: d' => negb (contains d' k) && wf d'
  end.
End Ops.

End PyDict.

(** ** The [requests] library, as far as the tools use it *)

Inductive http_method : Type := GET | POST | PUT.

(** The keyword arguments of one [requests.get/post/put] call. *)
Record Request : Type := mkRequest {
  method : http_method;
  url : string;
  params : PyDict.t string;
  json : option json_value;
  verify : bool;
  headers : PyDict.t string
}.

(** A response object.  [json_payload] is what the body decodes to; [None]
    when the body is not JSON. *)
Record Response : Type := mkResponse {
  status_code : Z;
  text : string;
  json_payload : option json_value
}.

(** What [requests] raises when no response arrives. *)
Inductive RequestException : Type :=
| ConnectionError
| Timeout.

(** One HTTP exchange either yields a response or fails in transport. *)
Inductive outcome : Type :=
| Responded (r : Response)
| Failed (e : RequestException).

(** ** Exceptions and the log *)

(** [ValueError msg] is what a tool raises itself.  [RequestError e] is the
    exception [requests.get/post/put] raised because no response arrived.
    [JSONDecodeError] is raised by [Response.json()] on a body that is not
    JSON; in Python it derives from both [ValueError] and
    [RequestException], and its message is the decoder's. *)
Inductive exn : Type :=
| ValueError (msg : string)
| RequestError (e : RequestException)
| JSONDecodeError.

(** [isinstance(e, ValueError)] *)
Definition isinstance_ValueError (e : exn) : bool :=
  match e with
  | ValueError _ | JSONDecodeError => true
  | RequestError _ => false
  end.

(** [isinstance(e, requests.exceptions.RequestException)] *)
Definition isinstance_RequestException (e : exn) : bool :=
  match e with
  | RequestError _ | JSONDecodeError => true
  | ValueError _ => false
  end.

Inductive log_level : Type := DEBUG | INFO | WARNING | ERROR | CRITICAL.

Definition LogRecord : Type := (log_level * string)%type.

(** ** The world and the monad of tool bodies *)

(** [log] is the content of bugzilla_mcp.log, [sent] the requests issued so
    far (oldest first), [server] the state of the bug tracker. *)
Record World (S : Type) : Type := mkWorld {
  log : list LogRecord;
  sent : list Request;
  server : S
}.
Arguments mkWorld {S} _ _ _.
Arguments log {S} _.
Arguments sent {S} _.
Arguments server {S} _.

Inductive result (A : Type) : Type :=
| Return (a : A)
| Raise (e : exn).
Arguments Return {A} _.
Arguments Raise {A} _.

Definition M (S A : Type) : Type := World S -> result A * World S.

Definition ret {S A : Type} (a : A) : M S A := fun w => (Return a, w).

Definition raise {S A : Type} (e : exn) : M S A := fun w => (Raise e, w).

Definition bind {S A B : Type} (c : M S A) (k : A -> M S B) : M S B :=
  fun w =>
    match c w with
    | (Return a, w') => k a w'
    | (Raise e, w') => (Raise e, w')
    end.

Notation "x <- c1 ;; c2" := (bind c1 (fun x => c2))
  (at level 61, c1 at next level, right associativity).
Notation "c1 ;; c2" := (bind c1 (fun _ => c2))
  (at level 61, right associativity).

(** [logger.error(msg)]: the logger's threshold is INFO, so the record is
    written. *)
Definition logger_error {S : Type} (msg : string) : M S unit :=
  fun w =>
    (Return tt, mkWorld (log w ++ [(ERROR, msg)])%list (sent w) (server w)).

(** [str(n)] for an int, as an f-string formats it. *)
Definition str_of_int (n : Z) : string := NilZero.string_of_int (Z.to_int n).

(** [response.json()] *)
Definition Response_json {S : Type} (response : Response) : M S json_value :=
  match json_payload response with
  | Some v => ret v
  | None => raise JSONDecodeError
  end.

(** ** Module-level constants *)

Definition PORT : Z := 4200.

Definition HEADERS : PyDict.t string :=
  PyDict.literal [("Content-Type", "application/json");
                  ("Accept", "application/json")].

(** ** Start-up: the module body that reads the configuration

    [os.environ] is a dictionary of strings.  The module body runs once, at
    import; when it raises, no tool is ever registered. *)

(** [os.getenv(key)] *)
Definition os_getenv (environ : PyDict.t string) (key : string)
  : option string :=
  PyDict.get environ key.

(** [not x] for a value that is [None] or a string: true on [None] and on
    the empty string. *)
Definition is_falsy (x : option string) : bool :=
  match x with
  | Some (String _ _) => false
  | Some EmptyString | None => true
  end.

(** The string a name is bound to once [is_falsy] has been ruled out. *)
Definition bound_str (x : option string) : string :=
  match x with Some s => s | None => "" end.

(** Lines 13-20: on success the pair (BUGZILLA_API_URL, BUGZILLA_API_KEY). *)
Definition module_init {S : Type} (environ : PyDict.t string)
  : M S (string * string) :=
  let BUGZILLA_API_URL := os_getenv environ "BUGZILLA_API_URL" in
  if is_falsy BUGZILLA_API_URL then
    logger_error "BUGZILLA_API_URL environment variable is not set." ;;
    raise (ValueError "BUGZILLA_API_URL environment variable is required.")
  else
    let BUGZILLA_API_KEY := os_getenv environ "BUGZILLA_API_KEY" in
    if is_falsy BUGZILLA_API_KEY then
      logger_error "BUGZILLA_API_KEY environment variable is not set." ;;
      raise (ValueError "BUGZILLA_API_KEY environment variable is required.")
    else ret (bound_str BUGZILLA_API_URL, bound_str BUGZILLA_API_KEY).

(** ** Tool calls: a tool and its arguments *)

Inductive call : Type :=
| GetBug (bug_ids : string)
| GetBugHistory (bug_id : string) (new_since : option string)
| SearchBugs (query_strs : PyDict.t string)
| CreateBug (bug_data : PyDict.t json_value)
| UpdateBug (bug_id : string) (bug_data : PyDict.t json_value)
| GetBugComments (bug_id : string).

(** The three lookup-by-id tools. *)
Definition is_lookup (c : call) : bool :=
  match c with
  | GetBug _ | GetBugHistory _ _ | GetBugComments _ => true
  | SearchBugs _ | CreateBug _ | UpdateBug _ _ => false
  end.

(** The status on which a tool returns the decoded body. *)
Definition success_status (c : call) : Z :=
  match c with
  | CreateBug _ => 201
  | _ => 200
  end%Z.

(** The message of the [ValueError] each tool raises. *)
Definition failure_message (c : call) : string :=
  match c with
  | GetBug _ => "Failed to fetch Bugzilla bug details."
  | GetBugHistory _ _ => "Failed to fetch Bugzilla bug history."
  | SearchBugs _ => "Failed to search Bugzilla bugs."
  | CreateBug _ => "Failed to create Bugzilla bug."
  | UpdateBug _ _ => "Failed to update Bugzilla bug."
  | GetBugComments _ => "Failed to fetch Bugzilla bug comments."
  end.

(** The value the lookups return on 404. *)
Definition not_found : json_value := JDict [("error", JStr "Bug not found")].

(** Does the caller supply an [api_key] field of its own? *)
Definition caller_sets_api_key (c : call) : bool :=
  match c with
  | SearchBugs query_strs => PyDict.contains query_strs "api_key"
  | _ => false
  end.

(** ** Test doubles *)

(** A backend that answers every request with [o] and counts the requests
    it has served. *)
Definition fixed_backend (o : outcome) (served : nat) (_ : Request)
  : outcome * nat :=
  (o, S served).

(** A backend that answers by the method of the request. *)
Definition by_method_backend (on_get on_post on_put : outcome)
    (served : nat) (req : Request) : outcome * nat :=
  (match method req with
   | GET => on_get
   | POST => on_post
   | PUT => on_put
   end, S served).

Definition fresh_world : World nat := mkWorld [] [] 0%nat.

Definition example_url : string := "https://bugzilla.example/rest/".

Definition example_key : string := "s3cret".

Definition example_environ : PyDict.t string :=
  [("HOME", "/root");
   ("BUGZILLA_API_URL", example_url);
   ("BUGZILLA_API_KEY", example_key)].

Definition error_response : Response :=
  mkResponse 500 "Internal Server Error" None.

Definition garbled_response : Response := mkResponse 200 "<html>" None.

Definition bug_123 : json_value :=
  JDict [("bugs", JList [JDict [("id", JInt 123); ("summary", JStr "x")]]);
         ("faults", JList [])].

Definition ok_response : Response := mkResponse 200 "{}" (Some bug_123).

Definition created_response : Response :=
  mkResponse 201 "{}" (Some (JDict [("id", JInt 42)])).

Definition missing_response : Response := mkResponse 404 "Not Found" None.

(** ** The server *)

Section Server.

(** The bug tracker: given its state and a request, an outcome and its
    next state. *)
Variable ServerState : Type.
Variable backend : ServerState -> Request -> outcome * ServerState.

(** Read from the environment at start-up; both are required. *)
Variable BUGZILLA_API_URL : string.
Variable BUGZILLA_API_KEY : string.

(** What a tool body is: a computation yielding a JSON value. *)
Definition tool : Type := M ServerState json_value.

(** [requests.request(method, url, ...)]: one exchange with the backend. *)
Definition requests_request (req : Request) : M ServerState Response :=
  fun w =>
    let (o, s') := backend (server w) req in
    let w' := mkWorld (log w) (sent w ++ [req])%list s' in
    match o with
    | Responded r => (Return r, w')
    | Failed e => (Raise (RequestError e), w')
    end.

Definition requests_get (url : string) (params : PyDict.t string)
    (verify : bool) (headers : PyDict.t string) : M ServerState Response :=
  requests_request (mkRequest GET url params None verify headers).

Definition requests_post (url : string) (json : json_value)
    (params : PyDict.t string) (verify : bool) (headers : PyDict.t string)
  : M ServerState Response :=
  requests_request (mkRequest POST url params (Some json) verify headers).

Definition requests_put (url : string) (json : json_value)
    (params : PyDict.t string) (verify : bool) (headers : PyDict.t string)
  : M ServerState Response :=
  requests_request (mkRequest PUT url params (Some json) verify headers).

(** GET /rest/bug?id=12434,43421 *)
Definition get_bug (bug_ids : string) : tool :=
  let url := BUGZILLA_API_URL ++ "bug" in
  let params :=
    PyDict.literal [("id", bug_ids); ("api_key", BUGZILLA_API_KEY)] in
  response <- requests_get url params false HEADERS ;;
  if negb (status_code response =? 200)%Z then
    if (status_code response =? 404)%Z then
      logger_error (" Bug not found: " ++ bug_ids) ;;
      ret (JDict [("error", JStr "Bug not found")])
    else
      logger_error ("Bugzilla response status: "
                    ++ str_of_int (status_code response)) ;;
      logger_error ("Bugzilla response text: " ++ text response) ;;
      raise (ValueError "Failed to fetch Bugzilla bug details.")
  else Response_json response.

(** GET /rest/bug/(id)/history?new_since=YYYY-MM-DD *)
Definition get_bug_history (bug_id : string) (new_since : option string)
  : tool :=
  let new_since :=
    match new_since with Some d => d | None => "1970-01-01" end in
  let url := BUGZILLA_API_URL ++ "bug/" ++ bug_id ++ "/history" in
  let params :=
    PyDict.literal [("new_since", new_since);
                    ("api_key", BUGZILLA_API_KEY)] in
  response <- requests_get url params false HEADERS ;;
  if negb (status_code response =? 200)%Z then
    if (status_code response =? 404)%Z then
      logger_error (" Bug not found: " ++ bug_id) ;;
      ret (JDict [("error", JStr "Bug not found")])
    else
      logger_error ("Bugzilla response status: "
                    ++ str_of_int (status_code response)) ;;
      logger_error ("Bugzilla response text: " ++ text response) ;;
      raise (ValueError "Failed to fetch Bugzilla bug history.")
  else Response_json response.

(** GET /rest/bug?alias=alias1 *)
Definition search_bugs (query_strs : PyDict.t string) : tool :=
  let url := BUGZILLA_API_URL ++ "bug" in
  let params :=
    PyDict.update (PyDict.literal [("api_key", BUGZILLA_API_KEY)])
                  query_strs in
  response <- requests_get url params false HEADERS ;;
  if negb (status_code response =? 200)%Z then
    logger_error ("Bugzilla response status: "
                  ++ str_of_int (status_code response)) ;;
    logger_error ("Bugzilla response text: " ++ text response) ;;
    raise (ValueError "Failed to search Bugzilla bugs.")
  else Response_json response.

(** POST /rest/bug *)
Definition create_bug (bug_data : PyDict.t json_value) : tool :=
  let url := BUGZILLA_API_URL ++ "bug" in
  let params := PyDict.literal [("api_key", BUGZILLA_API_KEY)] in
  response <- requests_post url (JDict bug_data) params false HEADERS ;;
  if negb (status_code response =? 201)%Z then
    logger_error ("Bugzilla response status: "
                  ++ str_of_int (status_code response)) ;;
    logger_error ("Bugzilla response text: " ++ text response) ;;
    raise (ValueError "Failed to create Bugzilla bug.")
  else Response_json response.

(** PUT /rest/bug/(id) *)
Definition update_bug (bug_id : string) (bug_data : PyDict.t json_value)
  : tool :=
  let url := BUGZILLA_API_URL ++ "bug/" ++ bug_id in
  let params := PyDict.literal [("api_key", BUGZILLA_API_KEY)] in
  response <- requests_put url (JDict bug_data) params false HEADERS ;;
  if negb (status_code response =? 200)%Z then
    logger_error ("Bugzilla response status: "
                  ++ str_of_int (status_code response)) ;;
    logger_error ("Bugzilla response text: " ++ text response) ;;
    raise (ValueError "Failed to update Bugzilla bug.")
  else Response_json response.

(** GET /rest/bug/(id)/comment *)
Definition get_bug_comments (bug_id : string) : tool :=
  let url := BUGZILLA_API_URL ++ "bug/" ++ bug_id ++ "/comment" in
  let params := PyDict.literal [("api_key", BUGZILLA_API_KEY)] in
  response <- requests_get url params false HEADERS ;;
  if negb (status_code response =? 200)%Z then
    if (status_code response =? 404)%Z then
      logger_error (" Bug not found: " ++ bug_id) ;;
      ret (JDict [("error", JStr "Bug not found")])
    else
      logger_error ("Bugzilla response status: "
                    ++ str_of_int (status_code response)) ;;
      logger_error ("Bugzilla response text: " ++ text response) ;;
      raise (ValueError "Failed to fetch Bugzilla bug comments.")
  else Response_json response.

(** The tool registry: a call runs the function registered under its
    name on its arguments. *)
Definition invoke (c : call) : tool :=
  match c with
  | GetBug bug_ids => get_bug bug_ids
  | GetBugHistory bug_id new_since => get_bug_history bug_id new_since
  | SearchBugs query_strs => search_bugs query_strs
  | CreateBug bug_data => create_bug bug_data
  | UpdateBug bug_id bug_data => update_bug bug_id bug_data
  | GetBugComments bug_id => get_bug_comments bug_id
  end.

(** *** What a call sends, and how it ends

    [request_of] collects the request each tool body builds, and
    [classify] the way each body ends for a given exchange; [invoke_run]
    below proves that the bodies above do exactly this. *)

Definition request_of (c : call) : Request :=
  match c with
  | GetBug bug_ids =>
      mkRequest GET (BUGZILLA_API_URL ++ "bug")
        (PyDict.literal [("id", bug_ids); ("api_key", BUGZILLA_API_KEY)])
        None false HEADERS
  | GetBugHistory bug_id new_since =>
      mkRequest GET (BUGZILLA_API_URL ++ "bug/" ++ bug_id ++ "/history")
        (PyDict.literal
           [("new_since",
             match new_since with Some d => d | None => "1970-01-01" end);
            ("api_key", BUGZILLA_API_KEY)])
        None false HEADERS
  | SearchBugs query_strs =>
      mkRequest GET (BUGZILLA_API_URL ++ "bug")
        (PyDict.update (PyDict.literal [("api_key", BUGZILLA_API_KEY)])
                       query_strs)
        None false HEADERS
  | CreateBug bug_data =>
      mkRequest POST (BUGZILLA_API_URL ++ "bug")
        (PyDict.literal [("api_key", BUGZILLA_API_KEY)])
        (Some (JDict bug_data)) false HEADERS
  | UpdateBug bug_id bug_data =>
      mkRequest PUT (BUGZILLA_API_URL ++ "bug/" ++ bug_id)
        (PyDict.literal [("api_key", BUGZILLA_API_KEY)])
        (Some (JDict bug_data)) false HEADERS
  | GetBugComments bug_id =>
      mkRequest GET (BUGZILLA_API_URL ++ "bug/" ++ bug_id ++ "/comment")
        (PyDict.literal [("api_key", BUGZILLA_API_KEY)])
        None false HEADERS
  end.

(** The backend's answer to a call issued in world [w]. *)
Definition exchange (c : call) (w : World ServerState) : outcome :=
  fst (backend (server w) (request_of c)).

(** The identifier a lookup names in its "not found" log line. *)
Definition looked_up (c : call) : string :=
  match c with
  | GetBug bug_ids => bug_ids
  | GetBugHistory bug_id _ | GetBugComments bug_id => bug_id
  | _ => ""
  end.

Definition classify (c : call) (o : outcome) : result json_value :=
  match o with
  | Failed e => Raise (RequestError e)
  | Responded r =>
      if (status_code r =? success_status c)%Z then
        match json_payload r with
        | Some v => Return v
        | None => Raise JSONDecodeError
        end
      else if is_lookup c && (status_code r =? 404)%Z then Return not_found
      else Raise (ValueError (failure_message c))
  end.

Definition log_lines (c : call) (o : outcome) : list LogRecord :=
  match o with
  | Failed _ => []
  | Responded r =>
      if (status_code r =? success_status c)%Z then []
      else if is_lookup c && (status_code r =? 404)%Z then
        [(ERROR, " Bug not found: " ++ looked_up c)]
      else
        [(ERROR, "Bugzilla response status: " ++ str_of_int (status_code r));
         (ERROR, "Bugzilla response text: " ++ text r)]
  end.


(** ** Facts about dictionaries *)

Lemma PyDict_get_setitem_same (V : Type) (d : PyDict.t V) k v :
  PyDict.get (PyDict.setitem d k v) k = Some v.
Proof.
  induction d as [|[k' v'] d IH]; simpl.
  - now rewrite String.eqb_refl.
  - destruct (String.eqb k k') eqn:E; simpl; rewrite E; auto.
Qed.

Lemma PyDict_get_setitem_other (V : Type) (d : PyDict.t V) k k' v :
  k <> k' -> PyDict.get (PyDict.setitem d k' v) k = PyDict.get d k.
Proof.
  intros Hne. induction d as [|[k0 v0] d IH]; simpl.
  - destruct (String.eqb_spec k k'); [contradiction | reflexivity].
  - destruct (String.eqb_spec k' k0) as [->|Hk0]; simpl.
    + destruct (String.eqb_spec k k0); [contradiction | reflexivity].
    + now rewrite IH.
Qed.

Lemma PyDict_get_update_absent (V : Type) (items d : PyDict.t V) k :
  PyDict.get items k = None ->
  PyDict.get (PyDict.update d items) k = PyDict.get d k.
Proof.
  unfold PyDict.update. revert d.
  induction items as [|[k' v'] items IH]; intros d Hk; simpl in *.
  - reflexivity.
  - destruct (String.eqb_spec k k') as [->|Hne]; [discriminate|].
    rewrite IH by assumption. now apply PyDict_get_setitem_other.
Qed.

Lemma PyDict_get_update_present (V : Type) (items d : PyDict.t V) k v :
  PyDict.wf items = true ->
  PyDict.get items k = Some v ->
  PyDict.get (PyDict.update d items) k = Some v.
Proof.
  unfold PyDict.update. revert d.
  induction items as [|[k' v'] items IH]; intros d Hwf Hk; simpl in *.
  - discriminate.
  - apply andb_true_iff in Hwf as [Hfresh Hwf].
    destruct (String.eqb_spec k k') as [->|Hne].
    + injection Hk as ->.
      unfold PyDict.contains in Hfresh.
      destruct (PyDict.get items k') eqn:Hget; [discriminate|].
      fold (PyDict.update (PyDict.setitem d k' v) items).
      rewrite PyDict_get_update_absent by assumption.
      apply PyDict_get_setitem_same.
    + now apply IH.
Qed.

Lemma PyDict_contains_false (V : Type) (d : PyDict.t V) k :
  PyDict.contains d k = false -> PyDict.get d k = None.
Proof.
  unfold PyDict.contains. now destruct (PyDict.get d k).
Qed.

(** ** One run of a tool *)

(** A call makes one exchange, for the request [request_of] names; it
    ends as [classify] says and logs what [log_lines] says. *)
Lemma invoke_run (c : call) (w : World ServerState) :
  invoke c w =
  (classify c (exchange c w),
   mkWorld (log w ++ log_lines c (exchange c w))%list
           (sent w ++ [request_of c])%list
           (snd (backend (server w) (request_of c)))).
Proof.
  unfold exchange.
  destruct c; simpl;
    unfold get_bug, get_bug_history, search_bugs, create_bug, update_bug,
           get_bug_comments, requests_get, requests_post, requests_put,
           requests_request, bind; simpl;
    destruct (backend (server w) _) as [[r|e] s']; simpl;
    try (rewrite app_nil_r; reflexivity);
    destruct (status_code r =? _)%Z; simpl;
    try (unfold Response_json, ret, raise;
         destruct (json_payload r); simpl; rewrite app_nil_r; reflexivity);
    try (destruct (status_code r =? 404)%Z; simpl);
    unfold logger_error, ret, raise; simpl;
    rewrite <- ?app_assoc; reflexivity.
Qed.

Lemma invoke_result (c : call) (w : World ServerState) :
  fst (invoke c w) = classify c (exchange c w).
Proof. now rewrite invoke_run. Qed.

Lemma invoke_sent (c : call) (w : World ServerState) :
  sent (snd (invoke c w)) = (sent w ++ [request_of c])%list.
Proof. now rewrite invoke_run. Qed.

Lemma invoke_server (c : call) (w : World ServerState) :
  server (snd (invoke c w)) = snd (backend (server w) (request_of c)).
Proof. now rewrite invoke_run. Qed.

(** ** The claims *)

(** C1. On each of the three lookups (get_bug, get_bug_history,
    get_bug_comments), a response with status 404 makes the tool return
    the dictionary with the single entry error: "Bug not found", as a
    value and not as a raised exception. *)
Theorem lookup_404_returns_not_found
    (c : call) (w : World ServerState) (r : Response) :
  is_lookup c = true ->
  exchange c w = Responded r ->
  status_code r = 404%Z ->
  fst (invoke c w) = Return (JDict [("error", JStr "Bug not found")]).
Proof.
  intros Hlookup Hex H404.
  rewrite invoke_result, Hex. unfold classify.
  rewrite H404, Hlookup.
  destruct c; try discriminate Hlookup; reflexivity.
Qed.

(** C2. For each of the six tools, a response carrying the tool's success
    status (201 for create_bug, 200 for the others) and a body that
    decodes to the JSON value [v] makes the tool return exactly [v]. *)
Theorem success_returns_body_unchanged
    (c : call) (w : World ServerState) (r : Response) (v : json_value) :
  exchange c w = Responded r ->
  status_code r = success_status c ->
  json_payload r = Some v ->
  fst (invoke c w) = Return v.
Proof.
  intros Hex Hst Hbody.
  rewrite invoke_result, Hex. unfold classify.
  now rewrite Hst, Z.eqb_refl, Hbody.
Qed.

(** C3, as amended.  Every call issues exactly one request, and unless
    the call is a search_bugs whose query_strs has a key api_key, that
    request carries the configured credential as its api_key query
    parameter. *)
Theorem credential_forwarded_unless_overridden
    (c : call) (w : World ServerState) :
  caller_sets_api_key c = false ->
  exists req,
    sent (snd (invoke c w)) = (sent w ++ [req])%list /\
    PyDict.get (params req) "api_key" = Some BUGZILLA_API_KEY.
Proof.
  intros Hown. exists (request_of c). split; [apply invoke_sent|].
  destruct c; simpl in *; try reflexivity.
  apply PyDict_contains_false in Hown.
  now rewrite PyDict_get_update_absent.
Qed.


(** C5. On search_bugs, and likewise on create_bug, a response with status
    404 raises the tool's [ValueError]: the not-found value of the lookups
    is not returned. *)
Theorem search_and_create_404_raise :
  (forall (query_strs : PyDict.t string) (w : World ServerState)
          (r : Response),
      exchange (SearchBugs query_strs) w = Responded r ->
      status_code r = 404%Z ->
      fst (search_bugs query_strs w)
        = Raise (ValueError "Failed to search Bugzilla bugs.")) /\
  (forall (bug_data : PyDict.t json_value) (w : World ServerState)
          (r : Response),
      exchange (CreateBug bug_data) w = Responded r ->
      status_code r = 404%Z ->
      fst (create_bug bug_data w)
        = Raise (ValueError "Failed to create Bugzilla bug.")).
Proof.
  split.
  - intros query_strs w r Hex H404.
    change (search_bugs query_strs) with (invoke (SearchBugs query_strs)).
    rewrite invoke_result, Hex. unfold classify. now rewrite H404.
  - intros bug_data w r Hex H404.
    change (create_bug bug_data) with (invoke (CreateBug bug_data)).
    rewrite invoke_result, Hex. unfold classify. now rewrite H404.
Qed.

(** C6. create_bug raises its [ValueError] on every response whose status
    is not 201, status 200 included: it returns a value only on 201. *)
Theorem create_bug_needs_201
    (bug_data : PyDict.t json_value) (w : World ServerState)
    (r : Response) :
  exchange (CreateBug bug_data) w = Responded r ->
  status_code r <> 201%Z ->
  fst (create_bug bug_data w)
    = Raise (ValueError "Failed to create Bugzilla bug.").
Proof.
  intros Hex Hst.
  change (create_bug bug_data) with (invoke (CreateBug bug_data)).
  rewrite invoke_result, Hex. unfold classify. simpl.
  now apply Z.eqb_neq in Hst as ->.
Qed.

(** C7. update_bug issues one request, a PUT whose JSON body is the
    bug_data argument itself. *)
Theorem update_bug_body_is_bug_data
    (bug_id : string) (bug_data : PyDict.t json_value)
    (w : World ServerState) :
  exists req,
    sent (snd (update_bug bug_id bug_data w)) = (sent w ++ [req])%list /\
    method req = PUT /\
    json req = Some (JDict bug_data).
Proof.
  exists (request_of (UpdateBug bug_id bug_data)). split; [|split].
  - apply (invoke_sent (UpdateBug bug_id bug_data)).
  - reflexivity.
  - reflexivity.
Qed.


(** C9. When the query_strs of search_bugs has a key api_key, the request
    carries the caller's value for api_key: the caller's fields are merged
    over the credential. *)
Theorem search_bugs_caller_api_key_wins
    (query_strs : PyDict.t string) (v : string) (w : World ServerState) :
  PyDict.wf query_strs = true ->
  PyDict.get query_strs "api_key" = Some v ->
  exists req,
    sent (snd (search_bugs query_strs w)) = (sent w ++ [req])%list /\
    PyDict.get (params req) "api_key" = Some v.
Proof.
  intros Hwf Hget. exists (request_of (SearchBugs query_strs)). split.
  - apply (invoke_sent (SearchBugs query_strs)).
  - simpl. now apply PyDict_get_update_present.
Qed.

(** C10. Every call issues exactly one request, and that request has
    verify=False. *)
Theorem every_request_skips_verification
    (c : call) (w : World ServerState) :
  exists req,
    sent (snd (invoke c w)) = (sent w ++ [req])%list /\
    verify req = false.
Proof.
  exists (request_of c). split; [apply invoke_sent|].
  destruct c; reflexivity.
Qed.

(** ** Further facts about dictionaries and runs *)

Lemma PyDict_get_update (V : Type) (items d : PyDict.t V) k :
  PyDict.wf items = true ->
  PyDict.get (PyDict.update d items) k =
  match PyDict.get items k with
  | Some v => Some v
  | None => PyDict.get d k
  end.
Proof.
  intros Hwf. destruct (PyDict.get items k) as [v|] eqn:Hget.
  - now apply PyDict_get_update_present.
  - now apply PyDict_get_update_absent.
Qed.

Lemma PyDict_update_head (V : Type) (items d : PyDict.t V) k v :
  exists v' rest, PyDict.update ((k, v) :: d) items = (k, v') :: rest.
Proof.
  unfold PyDict.update. revert d v.
  induction items as [|[k1 v1] items IH]; intros d v; simpl.
  - eauto.
  - destruct (String.eqb k1 k); apply IH.
Qed.

Lemma invoke_log (c : call) (w : World ServerState) :
  log (snd (invoke c w)) = (log w ++ log_lines c (exchange c w))%list.
Proof. now rewrite invoke_run. Qed.

Lemma request_api_key (c : call) :
  caller_sets_api_key c = false ->
  PyDict.get (params (request_of c)) "api_key" = Some BUGZILLA_API_KEY.
Proof.
  intros Hown. destruct c; simpl in *; try reflexivity.
  apply PyDict_contains_false in Hown.
  now rewrite PyDict_get_update_absent.
Qed.

Lemma to_int_proper (n : Z) :
  Z.to_int n <> Decimal.Pos Decimal.Nil /\
  Z.to_int n <> Decimal.Neg Decimal.Nil.
Proof.
  destruct n as [|p|p]; simpl; split; try discriminate;
    intros H; injection H as H;
    now apply DecimalPos.Unsigned.to_uint_nonnil in H.
Qed.

Lemma str_of_int_inj (a b : Z) : str_of_int a = str_of_int b -> a = b.
Proof.
  unfold str_of_int. intros H.
  apply (f_equal NilZero.int_of_string) in H.
  rewrite !NilZero.isi in H by apply to_int_proper.
  injection H as H. now apply DecimalZ.to_int_inj.
Qed.

(** ** More of what the code does *)

(** X1. A response with the tool's success status leaves the log as it
    was, whether or not the body decodes. *)
Theorem success_status_logs_nothing
    (c : call) (w : World ServerState) (r : Response) :
  exchange c w = Responded r ->
  status_code r = success_status c ->
  log (snd (invoke c w)) = log w.
Proof.
  intros Hex Hst. rewrite invoke_log, Hex. unfold log_lines.
  now rewrite Hst, Z.eqb_refl, app_nil_r.
Qed.

(** X2. A transport failure leaves the log as it was: the exception is the
    only trace of it. *)
Theorem transport_failure_logs_nothing
    (c : call) (w : World ServerState) (e : RequestException) :
  exchange c w = Failed e ->
  log (snd (invoke c w)) = log w.
Proof.
  intros Hex. rewrite invoke_log, Hex. apply app_nil_r.
Qed.

(** X3. A response with a failing status (any status but the tool's
    success status, and but 404 on a lookup) appends two ERROR records to
    the log: the status in decimal, then the body text. *)
Theorem failure_logs_status_and_body
    (c : call) (w : World ServerState) (r : Response) :
  exchange c w = Responded r ->
  status_code r <> success_status c ->
  is_lookup c && (status_code r =? 404)%Z = false ->
  log (snd (invoke c w)) =
  (log w ++
   [(ERROR,
     ("Bugzilla response status: " ++ str_of_int (status_code r))%string);
    (ERROR, ("Bugzilla response text: " ++ text r)%string)])%list.
Proof.
  intros Hex Hst H404. rewrite invoke_log, Hex. unfold log_lines.
  apply Z.eqb_neq in Hst. now rewrite Hst, H404.
Qed.

(** X4. On 404 each lookup, taken by itself, appends one ERROR record that
    names the identifier it was called with: bug_ids for get_bug, bug_id
    for get_bug_history (whatever new_since is) and for
    get_bug_comments. *)
Theorem lookup_404_logs_the_id :
  (forall (bug_ids : string) (w : World ServerState) (r : Response),
      exchange (GetBug bug_ids) w = Responded r ->
      status_code r = 404%Z ->
      log (snd (get_bug bug_ids w))
        = (log w ++ [(ERROR, (" Bug not found: " ++ bug_ids)%string)])%list)
  /\
  (forall (bug_id : string) (new_since : option string)
          (w : World ServerState) (r : Response),
      exchange (GetBugHistory bug_id new_since) w = Responded r ->
      status_code r = 404%Z ->
      log (snd (get_bug_history bug_id new_since w))
        = (log w ++ [(ERROR, (" Bug not found: " ++ bug_id)%string)])%list)
  /\
  (forall (bug_id : string) (w : World ServerState) (r : Response),
      exchange (GetBugComments bug_id) w = Responded r ->
      status_code r = 404%Z ->
      log (snd (get_bug_comments bug_id w))
        = (log w ++ [(ERROR, (" Bug not found: " ++ bug_id)%string)])%list).
Proof.
  repeat apply conj.
  - intros bug_ids w r Hex H404.
    change (get_bug bug_ids) with (invoke (GetBug bug_ids)).
    rewrite invoke_log, Hex. unfold log_lines. now rewrite H404.
  - intros bug_id new_since w r Hex H404.
    change (get_bug_history bug_id new_since)
      with (invoke (GetBugHistory bug_id new_since)).
    rewrite invoke_log, Hex. unfold log_lines. now rewrite H404.
  - intros bug_id w r Hex H404.
    change (get_bug_comments bug_id) with (invoke (GetBugComments bug_id)).
    rewrite invoke_log, Hex. unfold log_lines. now rewrite H404.
Qed.

(** X5. The log is append-only: a call keeps every earlier record and adds
    at most two, all at level ERROR. *)
Theorem log_is_append_only (c : call) (w : World ServerState) :
  exists added,
    log (snd (invoke c w)) = (log w ++ added)%list /\
    Forall (fun rec => fst rec = ERROR) added /\
    (length added <= 2)%nat.
Proof.
  exists (log_lines c (exchange c w)). split; [apply invoke_log|].
  unfold log_lines. destruct (exchange c w) as [r|e]; simpl.
  - destruct (status_code r =? success_status c)%Z; simpl.
    + split; [constructor | lia].
    + destruct (is_lookup c && (status_code r =? 404)%Z); simpl;
        (split; [repeat constructor | lia]).
  - split; [constructor | lia].
Qed.

(** X6. Every request goes to the bug resource under the configured base
    URL: its URL is the base URL, verbatim, followed by "bug" and a
    suffix.  No separator is inserted after the base. *)
Theorem requests_go_under_base_url (c : call) (w : World ServerState) :
  exists req suffix,
    sent (snd (invoke c w)) = (sent w ++ [req])%list /\
    url req = BUGZILLA_API_URL ++ "bug" ++ suffix.
Proof.
  exists (request_of c).
  destruct c as [ids | id since | q | d | id d | id];
    [ exists "" | exists ("/" ++ id ++ "/history") | exists "" | exists ""
    | exists ("/" ++ id) | exists ("/" ++ id ++ "/comment") ];
    (split; [apply invoke_sent | reflexivity]).
Qed.

(** X7. Method and body by tool: the four reading tools send a GET with no
    JSON body; create_bug sends a POST and update_bug a PUT, each with the
    caller's bug_data as the JSON body. *)
Theorem method_and_body_by_tool (c : call) (w : World ServerState) :
  exists req,
    sent (snd (invoke c w)) = (sent w ++ [req])%list /\
    match c with
    | CreateBug bug_data =>
        method req = POST /\ json req = Some (JDict bug_data)
    | UpdateBug _ bug_data =>
        method req = PUT /\ json req = Some (JDict bug_data)
    | _ => method req = GET /\ json req = None
    end.
Proof.
  exists (request_of c). split; [apply invoke_sent|].
  destruct c; split; reflexivity.
Qed.

(** X8. Every request announces and accepts JSON: its headers bind
    Content-Type and Accept to application/json. *)
Theorem every_request_has_json_headers (c : call) (w : World ServerState) :
  exists req,
    sent (snd (invoke c w)) = (sent w ++ [req])%list /\
    PyDict.get (headers req) "Content-Type" = Some "application/json" /\
    PyDict.get (headers req) "Accept" = Some "application/json".
Proof.
  exists (request_of c). split; [apply invoke_sent|].
  destruct c; split; reflexivity.
Qed.

(** X9. The query parameters of search_bugs are the caller's query_strs
    with the credential as a default for api_key: every key of query_strs
    keeps the caller's value, api_key falls back to the credential, and no
    other key appears. *)
Theorem search_params_merge
    (query_strs : PyDict.t string) (w : World ServerState) :
  PyDict.wf query_strs = true ->
  exists req,
    sent (snd (search_bugs query_strs w)) = (sent w ++ [req])%list /\
    forall k,
      PyDict.get (params req) k =
      match PyDict.get query_strs k with
      | Some v => Some v
      | None => if String.eqb k "api_key" then Some BUGZILLA_API_KEY
                else None
      end.
Proof.
  intros Hwf. exists (request_of (SearchBugs query_strs)). split.
  - apply (invoke_sent (SearchBugs query_strs)).
  - intros k. simpl. now rewrite PyDict_get_update.
Qed.

(** X11. In a search_bugs request api_key is the first query parameter,
    also when the caller supplies its value. *)
Theorem search_api_key_comes_first
    (query_strs : PyDict.t string) (w : World ServerState) :
  exists req v rest,
    sent (snd (search_bugs query_strs w)) = (sent w ++ [req])%list /\
    params req = ("api_key", v) :: rest.
Proof.
  exists (request_of (SearchBugs query_strs)). simpl.
  destruct (PyDict_update_head string query_strs [] "api_key"
              BUGZILLA_API_KEY) as (v & rest & Heq).
  exists v, rest. split.
  - apply (invoke_sent (SearchBugs query_strs)).
  - exact Heq.
Qed.

(** X12. A returned value always comes from a response: either the
    decoded body of a response with the tool's success status, or the
    not-found value of a lookup answered with 404. *)
Theorem returned_value_comes_from_response
    (c : call) (w : World ServerState) (v : json_value) :
  fst (invoke c w) = Return v ->
  exists r,
    exchange c w = Responded r /\
    ((status_code r = success_status c /\ json_payload r = Some v) \/
     (is_lookup c = true /\ status_code r = 404%Z /\ v = not_found)).
Proof.
  rewrite invoke_result. unfold classify.
  destruct (exchange c w) as [r|e]; [|discriminate].
  intros H. exists r. split; [reflexivity|].
  destruct (Z.eqb_spec (status_code r) (success_status c)) as [Hst|Hst].
  - destruct (json_payload r); [|discriminate].
    injection H as ->. now left.
  - destruct (is_lookup c); simpl in H; [|discriminate].
    destruct (Z.eqb_spec (status_code r) 404); [|discriminate].
    injection H as <-. now right.
Qed.


(** X14. The body is decoded only on the success status: a decoding error
    is raised only after a response with the tool's success status whose
    body is not JSON. *)
Theorem decode_error_only_on_success_status
    (c : call) (w : World ServerState) :
  fst (invoke c w) = Raise JSONDecodeError ->
  exists r,
    exchange c w = Responded r /\
    status_code r = success_status c /\
    json_payload r = None.
Proof.
  rewrite invoke_result. unfold classify.
  destruct (exchange c w) as [r|e]; [|discriminate].
  destruct (Z.eqb_spec (status_code r) (success_status c)) as [Hst|Hst].
  - destruct (json_payload r) eqn:Hbody; [discriminate|]. eauto.
  - destruct (is_lookup c && (status_code r =? 404)%Z); discriminate.
Qed.

(** X15. An exception of the HTTP library (an instance of
    RequestException) reaches the caller in two cases only: the HTTP call
    itself failed, and the exception is the one it raised; or a response
    with the tool's success status had a body that is not JSON, and the
    exception is the decoder's. *)
Theorem library_exception_origin
    (c : call) (w : World ServerState) (e : exn) :
  fst (invoke c w) = Raise e ->
  isinstance_RequestException e = true ->
  (exists t, e = RequestError t /\ exchange c w = Failed t) \/
  (e = JSONDecodeError /\
   exists r, exchange c w = Responded r /\
             status_code r = success_status c /\
             json_payload r = None).
Proof.
  rewrite invoke_result. unfold classify.
  destruct (exchange c w) as [r|t].
  - destruct (Z.eqb_spec (status_code r) (success_status c)) as [Hst|Hst].
    + destruct (json_payload r) eqn:Hbody; [discriminate|].
      intros [= <-] _. right. eauto.
    + destruct (is_lookup c && (status_code r =? 404)%Z);
        [discriminate|]. now intros [= <-].
  - intros [= <-] _. left. eauto.
Qed.

(** X16. Once a response has arrived, whatever a tool raises is an
    instance of ValueError. *)
Theorem raise_after_response_is_value_error
    (c : call) (w : World ServerState) (r : Response) (e : exn) :
  exchange c w = Responded r ->
  fst (invoke c w) = Raise e ->
  isinstance_ValueError e = true.
Proof.
  intros Hex. rewrite invoke_result, Hex. unfold classify.
  destruct (status_code r =? success_status c)%Z.
  - destruct (json_payload r); [discriminate|]. now intros [= <-].
  - destruct (is_lookup c && (status_code r =? 404)%Z);
      [discriminate|]. now intros [= <-].
Qed.

(** X17. What a tool logs on a failing status tells the response apart:
    when two calls, started with equal logs and each answered with a
    failing status, leave equal logs, the two responses had the same status
    code and the same body text. *)
Theorem failure_log_determines_response
    (c1 c2 : call) (w1 w2 : World ServerState) (r1 r2 : Response) :
  exchange c1 w1 = Responded r1 ->
  exchange c2 w2 = Responded r2 ->
  status_code r1 <> success_status c1 ->
  status_code r2 <> success_status c2 ->
  is_lookup c1 && (status_code r1 =? 404)%Z = false ->
  is_lookup c2 && (status_code r2 =? 404)%Z = false ->
  log w1 = log w2 ->
  log (snd (invoke c1 w1)) = log (snd (invoke c2 w2)) ->
  status_code r1 = status_code r2 /\ text r1 = text r2.
Proof.
  intros Hex1 Hex2 Hst1 Hst2 Hnf1 Hnf2 Hlog.
  rewrite !invoke_log, Hex1, Hex2. unfold log_lines.
  apply Z.eqb_neq in Hst1, Hst2.
  rewrite Hst1, Hst2, Hnf1, Hnf2, Hlog.
  intros H. apply app_inv_head in H.
  injection H as Hstatus Htext. split.
  - apply str_of_int_inj.
    simpl in Hstatus. now repeat injection Hstatus as Hstatus.
  - simpl in Htext. now repeat injection Htext as Htext.
Qed.

(** X18. Calls compose without retries or batching: after a call [p] and
    then a call [c], the requests issued are the one of [p] followed by the
    one of [c], however [p] ended. *)
Theorem two_calls_send_two_requests (p c : call) (w : World ServerState) :
  sent (snd (invoke c (snd (invoke p w))))
    = (sent w ++ [request_of p; request_of c])%list.
Proof.
  rewrite !invoke_sent, <- app_assoc. reflexivity.
Qed.

(** X19. Start-up succeeds exactly when both environment variables are
    set and not empty, and then yields their values. *)
Theorem module_init_succeeds_iff_both_set
    (environ : PyDict.t string) (w : World ServerState)
    (base key : string) :
  fst (module_init environ w) = Return (base, key) <->
  (os_getenv environ "BUGZILLA_API_URL" = Some base /\ base <> "" /\
   os_getenv environ "BUGZILLA_API_KEY" = Some key /\ key <> "").
Proof.
  unfold module_init.
  destruct (os_getenv environ "BUGZILLA_API_URL") as [[|a u]|];
    destruct (os_getenv environ "BUGZILLA_API_KEY") as [[|b k]|];
    simpl; split;
    try discriminate;
    try (intros (H1 & H2 & H3 & H4); congruence).
  intros [= <- <-]. repeat split; discriminate.
Qed.

(** X20. When start-up fails it raises a ValueError that names the first
    variable found unset or empty, the URL before the key, after appending
    one ERROR record to the log; it sends nothing. *)
Theorem module_init_failure
    (environ : PyDict.t string) (w : World ServerState) (e : exn) :
  fst (module_init environ w) = Raise e ->
  sent (snd (module_init environ w)) = sent w /\
  ((is_falsy (os_getenv environ "BUGZILLA_API_URL") = true /\
    e = ValueError "BUGZILLA_API_URL environment variable is required." /\
    log (snd (module_init environ w)) =
      (log w ++
       [(ERROR, "BUGZILLA_API_URL environment variable is not set.")])%list)
   \/
   (is_falsy (os_getenv environ "BUGZILLA_API_URL") = false /\
    is_falsy (os_getenv environ "BUGZILLA_API_KEY") = true /\
    e = ValueError "BUGZILLA_API_KEY environment variable is required." /\
    log (snd (module_init environ w)) =
      (log w ++
       [(ERROR, "BUGZILLA_API_KEY environment variable is not set.")])%list)).
Proof.
  unfold module_init.
  destruct (is_falsy (os_getenv environ "BUGZILLA_API_URL")); simpl.
  - intros [= <-]. split; [reflexivity|]. left. auto.
  - destruct (is_falsy (os_getenv environ "BUGZILLA_API_KEY")); simpl.
    + intros [= <-]. split; [reflexivity|]. right. auto.
    + discriminate.
Qed.

(** X21. A server whose constants come from a successful start-up never
    sends an empty credential of its own: for every call that does not
    supply api_key itself, the api_key parameter is the non-empty value of
    the environment variable BUGZILLA_API_KEY. *)
Theorem started_server_sends_nonempty_credential
    (environ : PyDict.t string) (w0 w : World ServerState) (c : call) :
  fst (module_init environ w0)
    = Return (BUGZILLA_API_URL, BUGZILLA_API_KEY) ->
  caller_sets_api_key c = false ->
  exists req,
    sent (snd (invoke c w)) = (sent w ++ [req])%list /\
    PyDict.get (params req) "api_key" = Some BUGZILLA_API_KEY /\
    BUGZILLA_API_KEY <> "" /\
    os_getenv environ "BUGZILLA_API_KEY" = Some BUGZILLA_API_KEY.
Proof.
  intros Hinit Hown. exists (request_of c).
  split; [apply invoke_sent|]. split; [now apply request_api_key|].
  unfold module_init in Hinit.
  destruct (os_getenv environ "BUGZILLA_API_URL") as [[|a u]|];
    simpl in Hinit; try discriminate.
  destruct (os_getenv environ "BUGZILLA_API_KEY") as [[|b k]|];
    simpl in Hinit; try discriminate.
  injection Hinit as _ <-. split; [discriminate | reflexivity].
Qed.

End Server.

Arguments requests_request {ServerState} backend req _.
Arguments get_bug {ServerState} backend BUGZILLA_API_URL BUGZILLA_API_KEY bug_ids _.
Arguments get_bug_history {ServerState} backend BUGZILLA_API_URL BUGZILLA_API_KEY bug_id new_since _.
Arguments search_bugs {ServerState} backend BUGZILLA_API_URL BUGZILLA_API_KEY query_strs _.
Arguments create_bug {ServerState} backend BUGZILLA_API_URL BUGZILLA_API_KEY bug_data _.
Arguments update_bug {ServerState} backend BUGZILLA_API_URL BUGZILLA_API_KEY bug_id bug_data _.
Arguments get_bug_comments {ServerState} backend BUGZILLA_API_URL BUGZILLA_API_KEY bug_id _.
Arguments invoke {ServerState} backend BUGZILLA_API_URL BUGZILLA_API_KEY c _.
Arguments exchange {ServerState} backend BUGZILLA_API_URL BUGZILLA_API_KEY c w.

(** ** The scenarios of the specification, run against the test doubles *)

Example get_bug_123_found :
  fst (get_bug (fixed_backend (Responded ok_response))
               example_url example_key "123" fresh_world)
  = Return bug_123.
Proof. reflexivity. Qed.

Example get_bug_999_missing :
  get_bug (fixed_backend (Responded missing_response))
          example_url example_key "999" fresh_world
  = (Return not_found,
     mkWorld [(ERROR, " Bug not found: 999")]
             [mkRequest GET "https://bugzilla.example/rest/bug"
                        [("id", "999"); ("api_key", "s3cret")]
                        None false HEADERS]
             1%nat).
Proof. reflexivity. Qed.

Example create_bug_42 :
  fst (create_bug (fixed_backend (Responded created_response))
                  example_url example_key
                  [("product", JStr "P"); ("component", JStr "C");
                   ("summary", JStr "S"); ("version", JStr "1.0")]
                  fresh_world)
  = Return (JDict [("id", JInt 42)]).
Proof. reflexivity. Qed.

Example update_bug_500_logged :
  update_bug (fixed_backend (Responded (mkResponse 500 "oops" None)))
             example_url example_key "7" [("status", JStr "RESOLVED")]
             fresh_world
  = (Raise (ValueError "Failed to update Bugzilla bug."),
     mkWorld [(ERROR, "Bugzilla response status: 500");
              (ERROR, "Bugzilla response text: oops")]
             [mkRequest PUT "https://bugzilla.example/rest/bug/7"
                        [("api_key", "s3cret")]
                        (Some (JDict [("status", JStr "RESOLVED")]))
                        false HEADERS]
             1%nat).
Proof. reflexivity. Qed.

(** ** Instances of the theorems that have hypotheses *)

Lemma lookup_404_returns_not_found_witness :
  is_lookup (GetBugComments "999") = true /\
  exchange (fixed_backend (Responded missing_response))
           example_url example_key (GetBugComments "999") fresh_world
    = Responded missing_response /\
  status_code missing_response = 404%Z /\
  fst (invoke (fixed_backend (Responded missing_response))
              example_url example_key (GetBugComments "999") fresh_world)
    = Return (JDict [("error", JStr "Bug not found")]).
Proof.
  split; [reflexivity|]. split; [reflexivity|]. split; [reflexivity|].
  apply (lookup_404_returns_not_found nat
           (fixed_backend (Responded missing_response))
           example_url example_key (GetBugComments "999") fresh_world
           missing_response); reflexivity.
Defined.

Lemma success_returns_body_unchanged_witness :
  exchange (fixed_backend (Responded created_response))
           example_url example_key (CreateBug [("product", JStr "P")])
           fresh_world
    = Responded created_response /\
  status_code created_response
    = success_status (CreateBug [("product", JStr "P")]) /\
  json_payload created_response = Some (JDict [("id", JInt 42)]) /\
  fst (invoke (fixed_backend (Responded created_response))
              example_url example_key (CreateBug [("product", JStr "P")])
              fresh_world)
    = Return (JDict [("id", JInt 42)]).
Proof.
  split; [reflexivity|]. split; [reflexivity|]. split; [reflexivity|].
  apply (success_returns_body_unchanged nat
           (fixed_backend (Responded created_response))
           example_url example_key (CreateBug [("product", JStr "P")])
           fresh_world created_response); reflexivity.
Defined.

Lemma credential_forwarded_unless_overridden_witness :
  caller_sets_api_key (SearchBugs [("status", "NEW")]) = false /\
  exists req,
    sent (snd (invoke (fixed_backend (Responded ok_response))
                      example_url example_key
                      (SearchBugs [("status", "NEW")]) fresh_world))
      = (sent fresh_world ++ [req])%list /\
    PyDict.get (params req) "api_key" = Some example_key.
Proof.
  split; [reflexivity|].
  apply (credential_forwarded_unless_overridden nat
           (fixed_backend (Responded ok_response))
           example_url example_key
           (SearchBugs [("status", "NEW")]) fresh_world).
  reflexivity.
Defined.

Lemma search_and_create_404_raise_witness :
  (exchange (by_method_backend (Responded missing_response)
                               (Responded created_response)
                               (Responded ok_response))
            example_url example_key (SearchBugs [("status", "NEW")])
            fresh_world
     = Responded missing_response /\
   status_code missing_response = 404%Z /\
   fst (search_bugs (by_method_backend (Responded missing_response)
                                       (Responded created_response)
                                       (Responded ok_response))
                    example_url example_key [("status", "NEW")]
                    fresh_world)
     = Raise (ValueError "Failed to search Bugzilla bugs.")) /\
  (exchange (by_method_backend (Responded ok_response)
                               (Responded missing_response)
                               (Responded ok_response))
            example_url example_key (CreateBug [("product", JStr "P")])
            fresh_world
     = Responded missing_response /\
   fst (create_bug (by_method_backend (Responded ok_response)
                                      (Responded missing_response)
                                      (Responded ok_response))
                   example_url example_key [("product", JStr "P")]
                   fresh_world)
     = Raise (ValueError "Failed to create Bugzilla bug.")).
Proof.
  split.
  - split; [reflexivity|]. split; [reflexivity|].
    apply (proj1 (search_and_create_404_raise nat
                    (by_method_backend (Responded missing_response)
                                       (Responded created_response)
                                       (Responded ok_response))
                    example_url example_key)
                 [("status", "NEW")] fresh_world missing_response);
      reflexivity.
  - split; [reflexivity|].
    apply (proj2 (search_and_create_404_raise nat
                    (by_method_backend (Responded ok_response)
                                       (Responded missing_response)
                                       (Responded ok_response))
                    example_url example_key)
                 [("product", JStr "P")] fresh_world missing_response);
      reflexivity.
Defined.

Lemma create_bug_needs_201_witness :
  exchange (fixed_backend (Responded ok_response))
           example_url example_key (CreateBug [("product", JStr "P")])
           fresh_world
    = Responded ok_response /\
  status_code ok_response = 200%Z /\
  fst (create_bug (fixed_backend (Responded ok_response))
                  example_url example_key [("product", JStr "P")]
                  fresh_world)
    = Raise (ValueError "Failed to create Bugzilla bug.").
Proof.
  split; [reflexivity|]. split; [reflexivity|].
  apply (create_bug_needs_201 nat
           (fixed_backend (Responded ok_response))
           example_url example_key [("product", JStr "P")]
           fresh_world ok_response); [reflexivity | simpl; lia].
Defined.


Lemma search_bugs_caller_api_key_wins_witness :
  PyDict.wf [("status", "NEW"); ("api_key", "mine")] = true /\
  PyDict.get [("status", "NEW"); ("api_key", "mine")] "api_key"
    = Some "mine" /\
  exists req,
    sent (snd (search_bugs (fixed_backend (Responded ok_response))
                 example_url example_key
                 [("status", "NEW"); ("api_key", "mine")] fresh_world))
      = (sent fresh_world ++ [req])%list /\
    PyDict.get (params req) "api_key" = Some "mine".
Proof.
  split; [reflexivity|]. split; [reflexivity|].
  apply (search_bugs_caller_api_key_wins nat
           (fixed_backend (Responded ok_response))
           example_url example_key
           [("status", "NEW"); ("api_key", "mine")] "mine" fresh_world);
    reflexivity.
Defined.

(** ** Inputs on which a claim fails as stated *)

(** C3 as stated: a search whose query_strs has its own api_key sends that
    value, and the configured credential is in no parameter of the
    request. *)
Lemma search_bugs_overrides_credential :
  exists req,
    sent (snd (invoke (fixed_backend (Responded ok_response))
                      example_url example_key
                      (SearchBugs [("api_key", "mine")]) fresh_world))
      = [req] /\
    params req = [("api_key", "mine")] /\
    PyDict.get (params req) "api_key" <> Some example_key.
Proof.
  eexists. split; [reflexivity|]. split; [reflexivity|].
  simpl. discriminate.
Qed.


(** ** Instances of the further theorems that have hypotheses *)

Lemma success_status_logs_nothing_witness :
  exchange (fixed_backend (Responded garbled_response))
           example_url example_key (GetBug "123") fresh_world
    = Responded garbled_response /\
  status_code garbled_response = success_status (GetBug "123") /\
  log (snd (invoke (fixed_backend (Responded garbled_response))
                   example_url example_key (GetBug "123") fresh_world))
    = log fresh_world.
Proof.
  split; [reflexivity|]. split; [reflexivity|].
  apply (success_status_logs_nothing nat
           (fixed_backend (Responded garbled_response))
           example_url example_key (GetBug "123") fresh_world
           garbled_response); reflexivity.
Defined.

Lemma transport_failure_logs_nothing_witness :
  exchange (fixed_backend (Failed Timeout))
           example_url example_key (UpdateBug "7" []) fresh_world
    = Failed Timeout /\
  log (snd (invoke (fixed_backend (Failed Timeout))
                   example_url example_key (UpdateBug "7" []) fresh_world))
    = log fresh_world.
Proof.
  split; [reflexivity|].
  apply (transport_failure_logs_nothing nat
           (fixed_backend (Failed Timeout))
           example_url example_key (UpdateBug "7" []) fresh_world Timeout);
    reflexivity.
Defined.

Lemma failure_logs_status_and_body_witness :
  exchange (fixed_backend (Responded missing_response))
           example_url example_key (UpdateBug "7" []) fresh_world
    = Responded missing_response /\
  status_code missing_response <> success_status (UpdateBug "7" []) /\
  log (snd (invoke (fixed_backend (Responded missing_response))
                   example_url example_key (UpdateBug "7" []) fresh_world))
    = [(ERROR, "Bugzilla response status: 404");
       (ERROR, "Bugzilla response text: Not Found")].
Proof.
  split; [reflexivity|]. split; [simpl; lia|].
  apply (failure_logs_status_and_body nat
           (fixed_backend (Responded missing_response))
           example_url example_key (UpdateBug "7" []) fresh_world
           missing_response); [reflexivity | simpl; lia | reflexivity].
Defined.

Lemma lookup_404_logs_the_id_witness :
  exchange (fixed_backend (Responded missing_response))
           example_url example_key (GetBugHistory "7" (Some "2024-01-01"))
           fresh_world
    = Responded missing_response /\
  status_code missing_response = 404%Z /\
  log (snd (get_bug_history (fixed_backend (Responded missing_response))
                            example_url example_key "7" (Some "2024-01-01")
                            fresh_world))
    = [(ERROR, " Bug not found: 7")].
Proof.
  split; [reflexivity|]. split; [reflexivity|].
  apply (proj1 (proj2 (lookup_404_logs_the_id nat
                         (fixed_backend (Responded missing_response))
                         example_url example_key))
               "7" (Some "2024-01-01") fresh_world missing_response);
    reflexivity.
Defined.

Lemma search_params_merge_witness :
  PyDict.wf [("status", "NEW"); ("limit", "5")] = true /\
  exists req,
    sent (snd (search_bugs (fixed_backend (Responded ok_response))
                 example_url example_key
                 [("status", "NEW"); ("limit", "5")] fresh_world))
      = (sent fresh_world ++ [req])%list /\
    forall k,
      PyDict.get (params req) k =
      match PyDict.get [("status", "NEW"); ("limit", "5")] k with
      | Some v => Some v
      | None => if String.eqb k "api_key" then Some example_key else None
      end.
Proof.
  split; [reflexivity|].
  apply (search_params_merge nat
           (fixed_backend (Responded ok_response))
           example_url example_key
           [("status", "NEW"); ("limit", "5")] fresh_world).
  reflexivity.
Defined.

Lemma returned_value_comes_from_response_witness :
  fst (invoke (fixed_backend (Responded missing_response))
              example_url example_key (GetBug "999") fresh_world)
    = Return not_found /\
  exists r,
    exchange (fixed_backend (Responded missing_response))
             example_url example_key (GetBug "999") fresh_world
      = Responded r /\
    ((status_code r = success_status (GetBug "999") /\
      json_payload r = Some not_found) \/
     (is_lookup (GetBug "999") = true /\ status_code r = 404%Z /\
      not_found = not_found)).
Proof.
  split; [reflexivity|].
  apply (returned_value_comes_from_response nat
           (fixed_backend (Responded missing_response))
           example_url example_key (GetBug "999") fresh_world not_found).
  reflexivity.
Defined.


Lemma decode_error_only_on_success_status_witness :
  fst (invoke (fixed_backend (Responded garbled_response))
              example_url example_key (GetBugComments "7") fresh_world)
    = Raise JSONDecodeError /\
  exists r,
    exchange (fixed_backend (Responded garbled_response))
             example_url example_key (GetBugComments "7") fresh_world
      = Responded r /\
    status_code r = success_status (GetBugComments "7") /\
    json_payload r = None.
Proof.
  split; [reflexivity|].
  apply (decode_error_only_on_success_status nat
           (fixed_backend (Responded garbled_response))
           example_url example_key (GetBugComments "7") fresh_world).
  reflexivity.
Defined.

Lemma library_exception_origin_witness :
  fst (invoke (fixed_backend (Failed ConnectionError))
              example_url example_key (CreateBug []) fresh_world)
    = Raise (RequestError ConnectionError) /\
  isinstance_RequestException (RequestError ConnectionError) = true /\
  ((exists t,
      RequestError ConnectionError = RequestError t /\
      exchange (fixed_backend (Failed ConnectionError))
               example_url example_key (CreateBug []) fresh_world
        = Failed t) \/
   (RequestError ConnectionError = JSONDecodeError /\
    exists r,
      exchange (fixed_backend (Failed ConnectionError))
               example_url example_key (CreateBug []) fresh_world
        = Responded r /\
      status_code r = success_status (CreateBug []) /\
      json_payload r = None)).
Proof.
  split; [reflexivity|]. split; [reflexivity|].
  apply (library_exception_origin nat
           (fixed_backend (Failed ConnectionError))
           example_url example_key (CreateBug []) fresh_world
           (RequestError ConnectionError)); reflexivity.
Defined.

Lemma raise_after_response_is_value_error_witness :
  exchange (fixed_backend (Responded garbled_response))
           example_url example_key (GetBug "123") fresh_world
    = Responded garbled_response /\
  fst (invoke (fixed_backend (Responded garbled_response))
              example_url example_key (GetBug "123") fresh_world)
    = Raise JSONDecodeError /\
  isinstance_ValueError JSONDecodeError = true.
Proof.
  split; [reflexivity|]. split; [reflexivity|].
  apply (raise_after_response_is_value_error nat
           (fixed_backend (Responded garbled_response))
           example_url example_key (GetBug "123") fresh_world
           garbled_response JSONDecodeError); reflexivity.
Defined.

Lemma failure_log_determines_response_witness :
  log (snd (invoke (fixed_backend (Responded error_response))
                   example_url example_key (UpdateBug "7" []) fresh_world))
    = log (snd (invoke (fixed_backend (Responded error_response))
                       example_url example_key (GetBug "7")
                       (mkWorld [] [] 5%nat))) /\
  status_code error_response = status_code error_response /\
  text error_response = text error_response.
Proof.
  split; [reflexivity|].
  apply (failure_log_determines_response nat
           (fixed_backend (Responded error_response))
           example_url example_key (UpdateBug "7" []) (GetBug "7")
           fresh_world (mkWorld [] [] 5%nat)
           error_response error_response);
    first [reflexivity | simpl; lia].
Defined.

Lemma module_init_failure_witness :
  fst (module_init [("BUGZILLA_API_URL", example_url);
                    ("BUGZILLA_API_KEY", "")] fresh_world)
    = Raise (ValueError "BUGZILLA_API_KEY environment variable is required.")
  /\
  sent (snd (module_init [("BUGZILLA_API_URL", example_url);
                          ("BUGZILLA_API_KEY", "")] fresh_world))
    = sent fresh_world.
Proof.
  split; [reflexivity|].
  apply (module_init_failure nat
           [("BUGZILLA_API_URL", example_url); ("BUGZILLA_API_KEY", "")]
           fresh_world
           (ValueError "BUGZILLA_API_KEY environment variable is required.")).
  reflexivity.
Defined.

Lemma started_server_sends_nonempty_credential_witness :
  fst (module_init example_environ fresh_world)
    = Return (example_url, example_key) /\
  caller_sets_api_key (GetBugHistory "7" None) = false /\
  exists req,
    sent (snd (invoke (fixed_backend (Responded ok_response))
                      example_url example_key (GetBugHistory "7" None)
                      fresh_world))
      = (sent fresh_world ++ [req])%list /\
    PyDict.get (params req) "api_key" = Some example_key /\
    example_key <> "" /\
    os_getenv example_environ "BUGZILLA_API_KEY" = Some example_key.
Proof.
  split; [reflexivity|]. split; [reflexivity|].
  apply (started_server_sends_nonempty_credential nat
           (fixed_backend (Responded ok_response))
           example_url example_key example_environ
           fresh_world fresh_world (GetBugHistory "7" None)); reflexivity.
Defined.
